(** * The AviatorScript web playground: orchestration layer of [src/App.tsx]

    The component [App] holds three pieces of React state ([code], [output],
    [isRunning]), two refs to the Monaco editor, and four closures over them:
    [handleEditorDidMount], [analyzeCode], [handleEditorChange] and [runCode].
    The static analyzer and the execution engine are external collaborators;
    they appear here as parameters of the development.

    Stateful code is written in a small state-and-exception monad whose
    [try_catch] and [try_catch_finally] follow the JavaScript statements. *)

From Stdlib Require Import ZArith Ascii String List Lia.
From stdpp Require Import base option list strings gmap.

(** ** Completions *)

(** How a JavaScript evaluation ends: with a value, or by throwing. *)

Inductive completion (E A : Type) : Type :=
| Normal (a : A)
| Throw (e : E).
Arguments Normal {E A} a.
Arguments Throw {E A} e.

(** ** JavaScript values, as far as the component looks at them *)

(** The component treats script values as [any]; it only converts them to
    strings ([String(msg)], template literals) and reads [e.message] from a
    caught exception. *)
Class JSValue (V : Type) := {
  (** [String(v)] and the conversion done by a template literal. *)
  ToString : V -> string;
  (** [e.message]: the property's value, or the [TypeError] raised when [e] is
      [null] or [undefined]. *)
  GetMessage : V -> completion V V;
}.

(** The newline character of the template literals. *)
Definition LF : string := String "010"%char EmptyString.

(** ** The state-and-exception monad *)

Definition JS (E S A : Type) : Type := S -> completion E A * S.

Definition ret {E S A} (a : A) : JS E S A := fun s => (Normal a, s).

Definition throw {E S A} (e : E) : JS E S A := fun s => (Throw e, s).

Definition bind {E S A B} (m : JS E S A) (k : A -> JS E S B) : JS E S B :=
  fun s =>
    match m s with
    | (Normal a, s') => k a s'
    | (Throw e, s') => (Throw e, s')
    end.

Declare Scope js_scope.
Delimit Scope js_scope with js.
Notation "x <- m ;; k" := (bind m (fun x => k))
  (at level 100, m at next level, right associativity) : js_scope.
Notation "m ;; k" := (bind m (fun _ => k))
  (at level 100, right associativity) : js_scope.
Local Open Scope js_scope.

Definition get {E S} : JS E S S := fun s => (Normal s, s).
Definition modify {E S} (f : S -> S) : JS E S unit := fun s => (Normal tt, f s).

(** [try { body } catch (e) { handler e }]. State changes made by [body]
    before it throws are kept. *)
Definition try_catch {E S A} (body : JS E S A) (handler : E -> JS E S A)
  : JS E S A :=
  fun s =>
    match body s with
    | (Normal a, s') => (Normal a, s')
    | (Throw e, s') => handler e s'
    end.

(** [try { body } catch (e) { handler e } finally { fin }]: [fin] runs after
    [body] or [handler] on every path; the statement completes as [body] or
    [handler] did unless [fin] itself throws. *)
Definition try_catch_finally {E S A}
    (body : JS E S A) (handler : E -> JS E S A) (fin : JS E S unit)
  : JS E S A :=
  fun s =>
    let '(c, s1) := try_catch body handler s in
    match fin s1 with
    | (Normal _, s2) => (c, s2)
    | (Throw e, s2) => (Throw e, s2)
    end.

(** ** Diagnostics and markers *)

(** What [analyzer.analyze] returns for one issue. *)
Record Diagnostic := {
  line : Z;
  message : string;
  severity : Z;
}.

(** [monaco.MarkerSeverity]. *)
Inductive MarkerSeverity := Hint | Info | Warning | Error.

Definition MarkerSeverity_value (s : MarkerSeverity) : Z :=
  match s with Hint => 1 | Info => 2 | Warning => 4 | Error => 8 end.

(** The marker objects built in [analyzeCode]. *)
Record Marker := {
  startLineNumber : Z;
  startColumn : Z;
  endLineNumber : Z;
  endColumn : Z;
  marker_message : string;
  marker_severity : MarkerSeverity;
}.

(** The editor handle: [editor.getModel()] names the text model. *)
Record Editor := { getModel : nat }.

(** The [monaco] namespace handle; its [MarkerSeverity] is the enumeration
    above and its [editor.setModelMarkers] acts on the marker store below. *)
Inductive Monaco : Set := monaco_api.

(** The arrow function of [diagnostics.map] in [analyzeCode]. *)
Definition to_marker (monaco : Monaco) (d : Diagnostic) : Marker :=
  {| startLineNumber := line d;
     startColumn := 1;
     endLineNumber := line d;
     endColumn := 1000;
     marker_message := message d;
     marker_severity := if Z.eqb (severity d) 1 then Error else Warning |}.

(** ** The execution engine as the component sees it *)

(** The three property names of the context object. *)
Inductive ContextKey := key_print | key_println | key_p.

(** One call of [aviator.execute(code, context)]: the engine calls context
    functions, each time continuing with what the call returned (the new
    length of the array, as [push] returns it), until it returns a value or
    throws. A failing constructor [new AviatorScript()] is an engine that
    throws before any call. *)
Inductive engine (V : Type) : Type :=
| Return (result : V)
| Raise (e : V)
| Invoke (f : ContextKey) (msg : V) (k : nat -> engine V).
Arguments Return {V} result.
Arguments Raise {V} e.
Arguments Invoke {V} f msg k.

(** The calls an engine makes, in order, and how it ends, when every context
    function behaves as [Array.prototype.push] on an array that holds [len]
    elements at the start. *)
Fixpoint emitted {V} (e : engine V) (len : nat)
  : list (ContextKey * V) * completion V V :=
  match e with
  | Return v => ([], Normal v)
  | Raise x => ([], Throw x)
  | Invoke f msg k =>
      let '(cs, c) := emitted (k (S len)) (S len) in ((f, msg) :: cs, c)
  end.

(** ** The component *)

Section App.

Context {V : Type} `{!JSValue V}.

(** The external collaborators of [aviator-parser]:
    [new StaticAnalyzer().analyze(value)] returns diagnostics or throws, and
    [new AviatorScript().execute(code, context)] behaves as an [engine]. *)
Variable analyze : string -> completion V (list Diagnostic).
Variable execute : string -> engine V.

(** Everything the closures of [App] read and write: the React state, the two
    refs, what Monaco holds for the component (registered language ids and
    the markers per model and owner), the console, the pending [setTimeout]
    callbacks (each is [runCode]'s arrow function, given by the [code] it
    closed over), and a log of the texts handed to the analyzer. *)
Record World := {
  code : string;
  output : list string;
  isRunning : bool;
  editorRef : option Editor;
  monacoRef : option Monaco;
  languages : list string;
  modelMarkers : gmap (nat * string) (list Marker);
  console : list (string * V);
  timers : list string;
  analyzed : list string;
}.

Definition setCode (next : string) : JS V World unit :=
  modify (fun w =>
    {| code := next; output := output w; isRunning := isRunning w;
       editorRef := editorRef w; monacoRef := monacoRef w;
       languages := languages w; modelMarkers := modelMarkers w;
       console := console w; timers := timers w; analyzed := analyzed w |}).

(** [setOutput(prev => f(prev))]. *)
Definition setOutput_with (f : list string -> list string) : JS V World unit :=
  modify (fun w =>
    {| code := code w; output := f (output w); isRunning := isRunning w;
       editorRef := editorRef w; monacoRef := monacoRef w;
       languages := languages w; modelMarkers := modelMarkers w;
       console := console w; timers := timers w; analyzed := analyzed w |}).

(** [setOutput(next)]. *)
Definition setOutput (next : list string) : JS V World unit :=
  setOutput_with (fun _ => next).

Definition setIsRunning (next : bool) : JS V World unit :=
  modify (fun w =>
    {| code := code w; output := output w; isRunning := next;
       editorRef := editorRef w; monacoRef := monacoRef w;
       languages := languages w; modelMarkers := modelMarkers w;
       console := console w; timers := timers w; analyzed := analyzed w |}).

(** [editorRef.current = editor; monacoRef.current = monaco]. *)
Definition setRefs (editor : Editor) (monaco : Monaco) : JS V World unit :=
  modify (fun w =>
    {| code := code w; output := output w; isRunning := isRunning w;
       editorRef := Some editor; monacoRef := Some monaco;
       languages := languages w; modelMarkers := modelMarkers w;
       console := console w; timers := timers w; analyzed := analyzed w |}).

(** [monaco.languages.register({ id })]; the Monarch tokenizer table that is
    registered next is static configuration and is not modelled. *)
Definition languages_register (id : string) : JS V World unit :=
  modify (fun w =>
    {| code := code w; output := output w; isRunning := isRunning w;
       editorRef := editorRef w; monacoRef := monacoRef w;
       languages := languages w ++ [id]; modelMarkers := modelMarkers w;
       console := console w; timers := timers w; analyzed := analyzed w |}).

(** [monaco.editor.setModelMarkers(model, owner, markers)] replaces the
    markers that [owner] holds on [model]. *)
Definition setModelMarkers (model : nat) (owner : string)
    (markers : list Marker) : JS V World unit :=
  modify (fun w =>
    {| code := code w; output := output w; isRunning := isRunning w;
       editorRef := editorRef w; monacoRef := monacoRef w;
       languages := languages w;
       modelMarkers := <[(model, owner) := markers]> (modelMarkers w);
       console := console w; timers := timers w; analyzed := analyzed w |}).

(** [console.error(label, e)]. *)
Definition console_error (label : string) (e : V) : JS V World unit :=
  modify (fun w =>
    {| code := code w; output := output w; isRunning := isRunning w;
       editorRef := editorRef w; monacoRef := monacoRef w;
       languages := languages w; modelMarkers := modelMarkers w;
       console := console w ++ [(label, e)]; timers := timers w;
       analyzed := analyzed w |}).

Definition set_timers (ts : list string) (w : World) : World :=
  {| code := code w; output := output w; isRunning := isRunning w;
     editorRef := editorRef w; monacoRef := monacoRef w;
     languages := languages w; modelMarkers := modelMarkers w;
     console := console w; timers := ts; analyzed := analyzed w |}.

(** [setTimeout(callback, 10)] for the callback of [runCode] that closed over
    [code0]; every timer has the same delay, so they fire in the order set. *)
Definition setTimeout (code0 : string) : JS V World unit :=
  modify (fun w => set_timers (timers w ++ [code0]) w).

(** [new StaticAnalyzer().analyze(value)]. *)
Definition StaticAnalyzer_analyze (value : string)
  : JS V World (list Diagnostic) :=
  fun w =>
    (analyze value,
     {| code := code w; output := output w; isRunning := isRunning w;
        editorRef := editorRef w; monacoRef := monacoRef w;
        languages := languages w; modelMarkers := modelMarkers w;
        console := console w; timers := timers w;
        analyzed := analyzed w ++ [value] |}).

(** *** [analyzeCode] *)

Definition analyzeCode (value : string) (editor : Editor) (monaco : Monaco)
  : JS V World unit :=
  try_catch
    (diagnostics <- StaticAnalyzer_analyze value ;;
     let markers := map (to_marker monaco) diagnostics in
     setModelMarkers (getModel editor) "aviator" markers)
    (fun e => console_error "Analysis failed" e).

(** *** [handleEditorDidMount] *)

Definition handleEditorDidMount (editor : Editor) (monaco : Monaco)
  : JS V World unit :=
  setRefs editor monaco ;;
  languages_register "aviator" ;;
  w <- get ;;
  analyzeCode (code w) editor monaco.

(** *** [handleEditorChange]

    [value] is [string | undefined]; [None] is [undefined]. *)
Definition handleEditorChange (value : option string) : JS V World unit :=
  match value with
  | Some v =>
      setCode v ;;
      w <- get ;;
      match editorRef w, monacoRef w with
      | Some editor, Some monaco => analyzeCode v editor monaco
      | _, _ => ret tt
      end
  | None => ret tt
  end.

(** *** [runCode] *)

(** While the timer callback runs, the state also holds the array that
    [const currentOutput: string[] = []] allocated for it. *)
Definition Frame : Type := World * list string.

Definition lift_world {A} (m : JS V World A) : JS V Frame A :=
  fun fr => let '(c, w') := m (fst fr) in (c, (w', snd fr)).

(** [currentOutput.push(x)]: appends and returns the new length. *)
Definition currentOutput_push (x : string) : JS V Frame nat :=
  fun fr => (Normal (length (snd fr ++ [x])), (fst fr, snd fr ++ [x])).

(** Reading [currentOutput], as the spread [...currentOutput] does. *)
Definition currentOutput : JS V Frame (list string) :=
  fun fr => (Normal (snd fr), fr).

(** The scope of [currentOutput]: allocated empty, dropped at the end. *)
Definition with_currentOutput {A} (m : JS V Frame A) : JS V World A :=
  fun w => let '(c, fr) := m (w, []) in (c, fst fr).

(** The object handed to the engine. *)
Record Context := {
  print : V -> JS V Frame nat;
  println : V -> JS V Frame nat;
  p : V -> JS V Frame nat;
}.

Definition context : Context :=
  {| print := fun msg => currentOutput_push (ToString msg);
     println := fun msg => currentOutput_push (ToString msg);
     p := fun msg => currentOutput_push (ToString msg) |}.

(** Property lookup [ctx[f]]. *)
Definition Context_get (ctx : Context) (f : ContextKey)
  : V -> JS V Frame nat :=
  match f with
  | key_print => print ctx
  | key_println => println ctx
  | key_p => p ctx
  end.

(** Running an engine against a context object. *)
Fixpoint run_engine (ctx : Context) (e : engine V) : JS V Frame V :=
  match e with
  | Return v => ret v
  | Raise x => throw x
  | Invoke f msg k => n <- Context_get ctx f msg ;; run_engine ctx (k n)
  end.

(** [new AviatorScript().execute(code0, ctx)]. *)
Definition AviatorScript_execute (code0 : string) (ctx : Context)
  : JS V Frame V :=
  run_engine ctx (execute code0).

(** [e.message] in the [catch] clause. *)
Definition read_message (e : V) : JS V World V :=
  fun w => (GetMessage e, w).

(** The arrow function that [runCode] hands to [setTimeout]; [code0] is the
    [code] of the render in which [runCode] was created. *)
Definition runCode_timeout (code0 : string) : JS V World unit :=
  try_catch_finally
    (with_currentOutput
       (result <- AviatorScript_execute code0 context ;;
        lines <- currentOutput ;;
        lift_world
          (setOutput (lines ++ [LF +:+ "Result: " +:+ ToString result]))))
    (fun e =>
       m <- read_message e ;;
       setOutput_with
         (fun prev => prev ++ [LF +:+ "Error: " +:+ ToString m]))
    (setIsRunning false).

Definition runCode : JS V World unit :=
  w <- get ;;
  setIsRunning true ;;
  setOutput [] ;;
  setTimeout (code w).

(** The timer queue delivers its oldest callback. *)
Definition tick : JS V World unit :=
  fun w =>
    match timers w with
    | [] => (Normal tt, w)
    | code0 :: rest => runCode_timeout code0 (set_timers rest w)
    end.

(** One run from the click to the end of its callback, nothing in between. *)
Definition run : JS V World unit := runCode ;; tick.

End App.

(** Calling context functions one after the other, as a script with several
    output statements makes the engine do. *)
Fixpoint invoke_all {V} (ctx : Context) (cs : list (ContextKey * V))
  : JS V Frame unit :=
  match cs with
  | [] => ret tt
  | (f, msg) :: cs' => Context_get ctx f msg ;; invoke_all ctx cs'
  end.

(** The line that a recorded call stands for: the string form of its
    argument, whichever of the three names it went through. *)
Definition line_of {V} `{!JSValue V} (c : ContextKey * V) : string :=
  ToString (snd c).

(** ** Rendering of the output pane

    How the JSX classifies a line of [output]: by prefix, error first. *)
Inductive LineKind := ErrorLine | ResultLine | PlainLine.

Definition classify (l : string) : LineKind :=
  if String.prefix "Error:" l then ErrorLine
  else if String.prefix (LF +:+ "Result:") l then ResultLine
  else PlainLine.

(** ** A concrete universe of values

    Enough of JavaScript to write the scenarios down: primitives without
    numbers, a plain object [{message: m}], and [Error] objects. *)

Inductive jsval :=
| JUndefined
| JNull
| JBool (b : bool)
| JString (s : string)
| JObject (msg : jsval)
| JError (name msg : string).

Definition jsval_ToString (v : jsval) : string :=
  match v with
  | JUndefined => "undefined"
  | JNull => "null"
  | JBool true => "true"
  | JBool false => "false"
  | JString s => s
  | JObject _ => "[object Object]"
  | JError name msg =>
      if String.eqb msg "" then name
      else if String.eqb name "" then msg
      else name +:+ ": " +:+ msg
  end.

Definition jsval_GetMessage (v : jsval) : completion jsval jsval :=
  match v with
  | JUndefined =>
      Throw (JError "TypeError"
               "Cannot read properties of undefined (reading 'message')")
  | JNull =>
      Throw (JError "TypeError"
               "Cannot read properties of null (reading 'message')")
  | JBool _ | JString _ => Normal JUndefined
  | JObject m => Normal m
  | JError _ m => Normal (JString m)
  end.

#[export] Instance jsval_JSValue : JSValue jsval :=
  {| ToString := jsval_ToString; GetMessage := jsval_GetMessage |}.

(** The double quote character. *)
Definition DQ : string := String "034"%char EmptyString.

(** The initial value of the [code] state. *)
Definition initial_code : string :=
  String.concat LF
    [ "## Welcome to AviatorScript Web Runtime";
      "## This is a pure JS implementation of AviatorScript";
      "";
      "let a = 1;";
      "let b = 2;";
      "p(" +:+ DQ +:+ "Hello, World!" +:+ DQ +:+ ");";
      "p(" +:+ DQ +:+ "a + b = " +:+ DQ +:+ " + (a + b));";
      "";
      "## Try defining a function";
      "fn add(x, y) {";
      "  return x + y;";
      "}";
      "";
      "p(" +:+ DQ +:+ "Function call result: " +:+ DQ +:+ " + add(10, 20));";
      "";
      "## Try some loop";
      "for i in range(0, 5) {";
      "  p(" +:+ DQ +:+ "Loop " +:+ DQ +:+ " + i);";
      "}";
      "" ].

(** The component before the editor has mounted. *)
Definition initial_World : @World jsval :=
  {| code := initial_code; output := []; isRunning := false;
     editorRef := None; monacoRef := None; languages := [];
     modelMarkers := ∅; console := []; timers := []; analyzed := [] |}.

(** The same component once a run has left lines on the screen. *)
Definition used_World : @World jsval :=
  {| code := initial_code; output := ["stale"; LF +:+ "Result: 1"];
     isRunning := false;
     editorRef := Some {| getModel := 0 |}; monacoRef := Some monaco_api;
     languages := ["aviator"];
     modelMarkers := {[ (0%nat, "aviator") :=
                          [to_marker monaco_api
                             {| line := 7; message := "old"; severity := 2 |}] ]};
     console := []; timers := []; analyzed := [initial_code] |}.

(** An engine that throws [{message: "division by zero"}] at once. *)
Definition engine_fails : string -> engine jsval :=
  fun _ => Raise (JObject (JString "division by zero")).

(** An engine that emits ["x = 5"] through [p], then throws
    [{message: "division by zero"}]. *)
Definition engine_emits_then_fails : string -> engine jsval :=
  fun _ =>
    Invoke key_p (JString "x = 5")
      (fun _ => Raise (JObject (JString "division by zero"))).

(** An engine that throws [null]. *)
Definition engine_throws_null : string -> engine jsval :=
  fun _ => Raise JNull.

(** An engine for the initial script's first statements: two lines through
    [p] and [println], a third through [print] that shows what the second
    call returned, then the value of the last statement. *)
Definition engine_succeeds : string -> engine jsval :=
  fun _ =>
    Invoke key_p (JString "Hello, World!")
      (fun _ =>
         Invoke key_println (JString "a + b = 3")
           (fun n =>
              Invoke key_print (JBool (Nat.eqb n 2))
                (fun _ => Return (JString "done")))).

(** An analyzer that reports one error on line 3, and one that throws. *)
Definition analyzer_reports : string -> completion jsval (list Diagnostic) :=
  fun _ =>
    Normal [ {| line := 3; message := "unexpected token"; severity := 1 |} ].

Definition analyzer_throws : string -> completion jsval (list Diagnostic) :=
  fun _ => Throw (JError "SyntaxError" "unterminated string").

(** An analyzer that accepts the empty text, warns about a text that
    starts with [let] and throws on everything else. *)
Definition analyzer_checks : string -> completion jsval (list Diagnostic) :=
  fun t =>
    if String.eqb t "" then Normal []
    else if String.prefix "let" t then
      Normal [ {| line := 1; message := "unused variable"; severity := 2 |} ]
    else Throw (JError "SyntaxError" "unexpected token").

(** An engine that prints the text it is given and returns. *)
Definition engine_echo : string -> engine jsval :=
  fun t => Invoke key_println (JString t) (fun _ => Return (JString "ok")).

(** An engine whose script prints a line that starts with ["Error:"]. *)
Definition engine_prints_error : string -> engine jsval :=
  fun _ =>
    Invoke key_print (JString "Error: made up")
      (fun _ => Return JUndefined).

(** ** The events that drive the component

    The JSX wires the closures to the page: the editor calls
    [handleEditorDidMount] once it is mounted and [handleEditorChange] on
    every edit, the Run button calls [runCode] unless it is rendered
    [disabled={isRunning}], and the timer queue calls the pending callback. *)

Inductive Event :=
| Mount (editor : Editor) (monaco : Monaco)
| Change (value : option string)
| ClickRun
| TimerFires.

Section Events.

Context {V : Type} `{!JSValue V}.
Variable analyze : string -> completion V (list Diagnostic).
Variable execute : string -> engine V.

(** A click on [<button onClick={runCode} disabled={isRunning}>]: a disabled
    button delivers no click. *)
Definition Run_button_click : JS V World unit :=
  fun w => if isRunning w then (Normal tt, w) else runCode w.

Definition dispatch (ev : Event) : JS V World unit :=
  match ev with
  | Mount editor monaco => handleEditorDidMount analyze editor monaco
  | Change value => handleEditorChange analyze value
  | ClickRun => Run_button_click
  | TimerFires => tick execute
  end.

(** The state after an event. An exception that leaves a handler is reported
    by the host and the page goes on with the state the handler left. *)
Definition handle (w : World) (ev : Event) : World := snd (dispatch ev w).

Definition play (evs : list Event) (w : World) : World :=
  fold_left handle evs w.

(** The run lifecycle as the state shows it: either no callback is pending
    and [isRunning] is false, or exactly one is, [isRunning] is true and the
    output pane is empty. *)
Definition run_invariant (w : @World V) : Prop :=
  match timers w with
  | [] => isRunning w = false
  | [_] => isRunning w = true /\ output w = []
  | _ => False
  end.

(** The editor and the document agree: the refs are set together, and once
    they are, the text analysed last is the current [code] and, when the
    analyzer accepts that text, the editor's markers are its diagnostics. *)
Definition editor_invariant (w : @World V) : Prop :=
  match editorRef w, monacoRef w with
  | Some editor, Some monaco =>
      last (analyzed w) = Some (code w) /\
      match analyze (code w) with
      | Normal ds =>
          modelMarkers w !! (getModel editor, "aviator")
          = Some (map (to_marker monaco) ds)
      | Throw _ => True
      end
  | None, None => True
  | _, _ => False
  end.

(** The console entries that the analyses of [texts] leave behind: one per
    text on which the analyzer throws. *)
Definition analysis_failures (texts : list string) : list (string * V) :=
  omap (fun t =>
          match analyze t with
          | Throw e => Some ("Analysis failed", e)
          | Normal _ => None
          end)
       texts.

End Events.

(** * Properties *)

Section Engine.

Context {V : Type} `{!JSValue V}.

Lemma Context_get_context (f : ContextKey) (msg : V) (fr : @Frame V) :
  Context_get context f msg fr
  = (Normal (S (length (snd fr))), (fst fr, snd fr ++ [ToString msg])).
Proof.
  destruct f; cbn; unfold currentOutput_push;
    rewrite length_app, Nat.add_1_r; reflexivity.
Qed.

(** Against the component's context an engine only grows [currentOutput],
    by the lines of its calls in order, and ends as [emitted] says. *)
Lemma run_engine_context (e : engine V) :
  forall (w : World) (buf : list string),
    run_engine context e (w, buf)
    = (snd (emitted e (length buf)),
       (w, buf ++ map line_of (fst (emitted e (length buf))))).
Proof.
  induction e as [v | x | f msg k IH]; intros w buf.
  - cbn. rewrite app_nil_r. reflexivity.
  - cbn. rewrite app_nil_r. reflexivity.
  - cbn [run_engine]. unfold bind.
    rewrite Context_get_context. cbn [fst snd].
    rewrite IH, length_app, Nat.add_1_r. cbn [emitted].
    destruct (emitted (k (S (length buf))) (S (length buf))) as [cs c].
    cbn [fst snd map]. rewrite <- app_assoc. reflexivity.
Qed.

End Engine.

(** Opens the [try]/[catch]/[finally] of the timer callback and runs the
    engine up to its completion. *)
Ltac enter_callback :=
  unfold runCode_timeout, try_catch_finally, try_catch, with_currentOutput,
    AviatorScript_execute, bind, read_message;
  rewrite run_engine_context.

Section Callback.

Context {V : Type} `{!JSValue V}.
Variable execute : string -> engine V.

(** The callback on an engine that returns. *)
Lemma runCode_timeout_returns (code0 : string) (w : World)
    (cs : list (ContextKey * V)) (v : V) :
  emitted (execute code0) 0 = (cs, Normal v) ->
  runCode_timeout execute code0 w
  = (Normal tt,
     snd (setIsRunning false
            (snd (setOutput
                    (map line_of cs ++ [LF +:+ "Result: " +:+ ToString v])
                    w)))).
Proof.
  intros Hrun.
  enter_callback. cbn [length]. rewrite Hrun. reflexivity.
Qed.

(** The callback on an engine that throws a value with a readable
    [message]. *)
Lemma runCode_timeout_throws (code0 : string) (w : World)
    (cs : list (ContextKey * V)) (e m : V) :
  emitted (execute code0) 0 = (cs, Throw e) ->
  GetMessage e = Normal m ->
  runCode_timeout execute code0 w
  = (Normal tt,
     snd (setIsRunning false
            (snd (setOutput
                    (output w ++ [LF +:+ "Error: " +:+ ToString m]) w)))).
Proof.
  intros Hrun Hmsg.
  enter_callback. cbn [length]. rewrite Hrun. cbn [fst snd].
  rewrite Hmsg. reflexivity.
Qed.

(** The callback on an engine that throws [null] or [undefined]: reading
    [e.message] throws inside the [catch] clause, and that error escapes. *)
Lemma runCode_timeout_throws_nullish (code0 : string) (w : World)
    (cs : list (ContextKey * V)) (e t : V) :
  emitted (execute code0) 0 = (cs, Throw e) ->
  GetMessage e = Throw t ->
  runCode_timeout execute code0 w = (Throw t, snd (setIsRunning false w)).
Proof.
  intros Hrun Hmsg.
  enter_callback. cbn [length]. rewrite Hrun. cbn [fst snd].
  rewrite Hmsg. reflexivity.
Qed.

(** With no other callback pending, a run is its own callback executed on
    the state that [runCode] left. *)
Lemma run_unfold (w : World) :
  timers w = [] ->
  run execute w
  = runCode_timeout execute (code w)
      (snd (setOutput [] (snd (setIsRunning true w)))).
Proof.
  intros Hidle. destruct w; cbn in Hidle; subst.
  reflexivity.
Qed.

End Callback.

Section Claims.

Context {V : Type} `{!JSValue V}.
Variable analyze : string -> completion V (list Diagnostic).
Variable execute : string -> engine V.

(** Whatever the engine does and whatever was thrown, the callback leaves
    [isRunning] false. *)
Lemma runCode_timeout_idle (code0 : string) (w : World) :
  isRunning (snd (runCode_timeout execute code0 w)) = false.
Proof.
  enter_callback.
  destruct (emitted (execute code0) (length [])) as [cs [v | e]];
    cbn [fst snd]; [reflexivity |].
  destruct (GetMessage e); reflexivity.
Qed.

(** A run whose engine throws a value with a readable [message] ends with
    the error line alone, whatever the engine emitted before. *)
Lemma run_throws_output (w : World) (cs : list (ContextKey * V)) (e m : V) :
  timers w = [] ->
  emitted (execute (code w)) 0 = (cs, Throw e) ->
  GetMessage e = Normal m ->
  output (snd (run execute w)) = [LF +:+ "Error: " +:+ ToString m].
Proof.
  intros Hidle Hrun Hmsg.
  rewrite (run_unfold execute w Hidle).
  rewrite (runCode_timeout_throws execute _ _ cs e m) by assumption.
  reflexivity.
Qed.

(** C3. When [execute] returns [v] after the engine called context functions
    whose arguments stringify to L1..Ln, in that order and under any of the
    three names, the callback of the run completes with [output] equal to
    [L1; ...; Ln; "\nResult: " + String(v)], from whatever state it starts;
    and so does the whole run from click to completion. *)
Theorem run_returns_output
    (code0 : string) (w : World) (cs : list (ContextKey * V)) (v : V) :
  emitted (execute code0) 0 = (cs, Normal v) ->
  fst (runCode_timeout execute code0 w) = Normal tt /\
  output (snd (runCode_timeout execute code0 w))
  = map line_of cs ++ [LF +:+ "Result: " +:+ ToString v] /\
  (timers w = [] -> code w = code0 ->
   output (snd (run execute w))
   = map line_of cs ++ [LF +:+ "Result: " +:+ ToString v]).
Proof.
  intros Hrun.
  split; [| split].
  - rewrite (runCode_timeout_returns execute _ _ cs v) by exact Hrun.
    reflexivity.
  - rewrite (runCode_timeout_returns execute _ _ cs v) by exact Hrun.
    reflexivity.
  - intros Hidle Hcode. rewrite (run_unfold execute w Hidle), Hcode.
    rewrite (runCode_timeout_returns execute _ _ cs v) by exact Hrun.
    reflexivity.
Qed.

(** C4. [analyzeCode] completes normally for every text, whatever the
    analyzer does; when the analyzer throws, the markers held by the editor
    are the ones it held before, and when it returns, the markers of owner
    ["aviator"] on the editor's model are replaced by the translated
    diagnostics. *)
Theorem analyzeCode_never_throws
    (value : string) (editor : Editor) (monaco : Monaco) (w : World) :
  fst (analyzeCode analyze value editor monaco w) = Normal tt /\
  modelMarkers (snd (analyzeCode analyze value editor monaco w))
  = match analyze value with
    | Throw _ => modelMarkers w
    | Normal ds =>
        <[(getModel editor, "aviator") := map (to_marker monaco) ds]>
          (modelMarkers w)
    end.
Proof.
  unfold analyzeCode, try_catch, bind, StaticAnalyzer_analyze.
  destruct (analyze value) as [ds | e]; split; reflexivity.
Qed.

(** C5. [runCode] sets [isRunning]; the callback of a run ends with
    [isRunning] false for every engine behaviour and from every state,
    also when the [catch] clause itself throws; so does a whole run. *)
Theorem run_ends_idle (w : World) (code0 : string) :
  isRunning (snd (runCode w)) = true /\
  isRunning (snd (runCode_timeout execute code0 w)) = false /\
  isRunning (snd (run execute w)) = false.
Proof.
  split; [reflexivity | split; [apply runCode_timeout_idle |]].
  unfold run, bind, runCode, tick. cbn.
  destruct (timers w) as [| c rest]; cbn; apply runCode_timeout_idle.
Qed.

(** C6. The severity of a translated diagnostic is [Error] when the
    analyzer's code is 1 and [Warning] for every other integer. *)
Theorem severity_mapping_total (monaco : Monaco) (d : Diagnostic) :
  (severity d = 1%Z /\ marker_severity (to_marker monaco d) = Error) \/
  (severity d <> 1%Z /\ marker_severity (to_marker monaco d) = Warning).
Proof.
  unfold to_marker; cbn.
  destruct (Z.eqb_spec (severity d) 1) as [Heq | Hne]; [left | right];
    split; auto.
Qed.

(** C7. After a successful analysis the editor's markers of owner
    ["aviator"] are, diagnostic by diagnostic, markers on the diagnostic's
    line from column 1 to column 1000 with the diagnostic's message and the
    mapped severity; the text analysed plays no part. *)
Theorem analyzeCode_markers
    (value : string) (editor : Editor) (monaco : Monaco) (w : World)
    (ds : list Diagnostic) :
  analyze value = Normal ds ->
  modelMarkers (snd (analyzeCode analyze value editor monaco w))
    !! (getModel editor, "aviator")
  = Some
      (map (fun d =>
              {| startLineNumber := line d; startColumn := 1;
                 endLineNumber := line d; endColumn := 1000;
                 marker_message := message d;
                 marker_severity :=
                   if decide (severity d = 1%Z) then Error else Warning |})
         ds).
Proof.
  intros Hok.
  unfold analyzeCode, try_catch, bind, StaticAnalyzer_analyze.
  rewrite Hok. cbn. rewrite lookup_insert_eq. f_equal.
  apply map_ext. intros d. unfold to_marker. f_equal.
  destruct (Z.eqb_spec (severity d) 1); case_decide; congruence.
Qed.

(** C8. [runCode] leaves [output] empty, before the callback that calls
    the engine is even scheduled; and what a run ends with does not depend
    on the lines that were on screen when it started (for a run started
    while no other run's callback is pending). *)
Theorem runCode_resets_output (w : World) (prev : list string) :
  output (snd (runCode w)) = [] /\
  (timers w = [] ->
   output (snd (run execute (snd (setOutput prev w))))
   = output (snd (run execute w))).
Proof.
  split; [reflexivity | intros Hidle].
  rewrite (run_unfold execute w Hidle).
  rewrite (run_unfold execute (snd (setOutput prev w))) by exact Hidle.
  reflexivity.
Qed.

(** C9, amended. The context has the three functions [print], [println] and
    [p]; they are one and the same function, which appends [String(v)] to
    the callback's own array [currentOutput], returns the new length and
    leaves the component's state, [output] included, as it was; calls under
    any mix of the three names land in [currentOutput] in call order. *)
Theorem context_functions_push (cs : list (ContextKey * V)) (fr : @Frame V) :
  print context = println context /\
  println context = p context /\
  (forall f v,
      Context_get context f v fr
      = (Normal (S (length (snd fr))), (fst fr, snd fr ++ [ToString v]))) /\
  snd (invoke_all context cs fr) = (fst fr, snd fr ++ map line_of cs).
Proof.
  split; [reflexivity | split; [reflexivity | split]].
  - intros f v. apply Context_get_context.
  - revert fr. induction cs as [| [f v] cs IH]; intros [w buf].
    + cbn. rewrite app_nil_r. reflexivity.
    + cbn [invoke_all]. unfold bind. rewrite Context_get_context.
      rewrite IH. cbn. rewrite <- app_assoc. reflexivity.
Qed.

(** C10. A change event that carries [undefined] changes nothing and calls
    nothing. A change event that carries a text stores it in [code], and
    hands it to the analyzer exactly when both refs are set. *)
Theorem handleEditorChange_undefined (w : World) (v : string) :
  handleEditorChange analyze None w = (Normal tt, w) /\
  code (snd (handleEditorChange analyze (Some v) w)) = v /\
  analyzed (snd (handleEditorChange analyze (Some v) w))
  = analyzed w ++
      match editorRef w, monacoRef w with
      | Some _, Some _ => [v]
      | _, _ => []
      end.
Proof.
  split; [reflexivity |].
  unfold handleEditorChange, bind, setCode, get, modify. cbn.
  destruct (editorRef w) as [ed |], (monacoRef w) as [mo |]; cbn;
    try (rewrite app_nil_r; split; reflexivity).
  unfold analyzeCode, try_catch, bind, StaticAnalyzer_analyze. cbn.
  destruct (analyze v); split; reflexivity.
Qed.

End Claims.

(** * The scenarios, evaluated *)

(** Mounting the editor stores both refs, registers the language and
    analyses the initial text. *)
Example mount_analyzes_initial_code :
  let w := snd (handleEditorDidMount analyzer_reports {| getModel := 0 |}
                  monaco_api initial_World) in
  editorRef w = Some {| getModel := 0 |} /\
  monacoRef w = Some monaco_api /\
  languages w = ["aviator"] /\
  analyzed w = [initial_code] /\
  modelMarkers w !! (0%nat, "aviator")
  = Some [to_marker monaco_api
            {| line := 3; message := "unexpected token"; severity := 1 |}].
Proof. cbv zeta. repeat split; reflexivity. Qed.

(** An edit whose analysis throws: the text is stored, the failure goes to
    the console, the old markers stay. *)
Example edit_with_failing_analysis :
  let r := handleEditorChange analyzer_throws (Some "let x = ;") used_World in
  fst r = Normal tt /\
  code (snd r) = "let x = ;" /\
  modelMarkers (snd r) = modelMarkers used_World /\
  console (snd r)
  = [("Analysis failed", JError "SyntaxError" "unterminated string")].
Proof. cbv zeta. repeat split; reflexivity. Qed.

(** An engine that throws [null]: reading [e.message] in the [catch] clause
    throws a [TypeError] that leaves the callback, nothing is appended, and
    [finally] has still reset [isRunning]. *)
Example run_throws_null :
  let r := run engine_throws_null used_World in
  fst r
  = Throw (JError "TypeError"
             "Cannot read properties of null (reading 'message')") /\
  output (snd r) = [] /\
  isRunning (snd r) = false.
Proof. cbv zeta. repeat split; reflexivity. Qed.

(** C1. A run whose engine throws [{message: "division by zero"}] at once
    ends with the single line ["\nError: division by zero"]: the template
    literal of the [catch] clause starts with a newline. The line is not
    ["Error: division by zero"], and the output pane, which marks error
    lines by the prefix ["Error:"], shows it as a plain line. No result
    line is present. *)
Theorem run_failure_error_line :
  output (snd (run engine_fails used_World))
  = [LF +:+ "Error: division by zero"] /\
  output (snd (run engine_fails used_World)) <> ["Error: division by zero"] /\
  classify (LF +:+ "Error: division by zero") = PlainLine /\
  classify "Error: division by zero" = ErrorLine /\
  Forall (fun l => classify l <> ResultLine)
    (output (snd (run engine_fails used_World))).
Proof.
  assert (Hout : output (snd (run engine_fails used_World))
                 = [LF +:+ "Error: division by zero"]) by reflexivity.
  rewrite Hout.
  split; [reflexivity | split; [discriminate | split; [reflexivity |]]].
  split; [reflexivity |].
  constructor; [discriminate | constructor].
Qed.

(** C2. A run whose engine emits ["x = 5"] through [p] and then throws
    [{message: "division by zero"}] ends with the single line
    ["\nError: division by zero"]: the captured line sits in
    [currentOutput], which only the success branch reads. *)
Theorem run_failure_drops_captured_lines :
  emitted (engine_emits_then_fails (code used_World)) 0
  = ([(key_p, JString "x = 5")],
     Throw (JObject (JString "division by zero"))) /\
  output (snd (run engine_emits_then_fails used_World))
  = [LF +:+ "Error: division by zero"] /\
  ~ In "x = 5" (output (snd (run engine_emits_then_fails used_World))) /\
  output (snd (run engine_emits_then_fails used_World))
  <> ["x = 5"; "Error: division by zero"].
Proof.
  assert (Hout : output (snd (run engine_emits_then_fails used_World))
                 = [LF +:+ "Error: division by zero"]) by reflexivity.
  rewrite Hout.
  split; [reflexivity | split; [reflexivity | split; [| discriminate]]].
  intros [Hin | []]. discriminate Hin.
Qed.

Lemma run_returns_output_witness :
  emitted (engine_succeeds (code used_World)) 0
  = ([(key_p, JString "Hello, World!"); (key_println, JString "a + b = 3");
      (key_print, JBool true)],
     Normal (JString "done")) /\
  output (snd (run engine_succeeds used_World))
  = ["Hello, World!"; "a + b = 3"; "true"; LF +:+ "Result: done"].
Proof.
  split; [reflexivity |].
  destruct (run_returns_output engine_succeeds (code used_World) used_World
              [(key_p, JString "Hello, World!");
               (key_println, JString "a + b = 3");
               (key_print, JBool true)]
              (JString "done") eq_refl) as [_ [_ Hrun]].
  exact (Hrun eq_refl eq_refl).
Defined.

Lemma analyzeCode_markers_witness :
  analyzer_reports "let x = ;" =
    Normal [ {| line := 3; message := "unexpected token"; severity := 1 |} ] /\
  modelMarkers
    (snd (analyzeCode analyzer_reports "let x = ;" {| getModel := 0 |}
            monaco_api used_World))
    !! (0%nat, "aviator")
  = Some [ {| startLineNumber := 3; startColumn := 1; endLineNumber := 3;
              endColumn := 1000; marker_message := "unexpected token";
              marker_severity := Error |} ].
Proof.
  split; [reflexivity |].
  exact (analyzeCode_markers analyzer_reports "let x = ;" {| getModel := 0 |}
           monaco_api used_World
           [ {| line := 3; message := "unexpected token"; severity := 1 |} ]
           eq_refl).
Defined.

Lemma runCode_resets_output_witness :
  timers used_World = [] /\
  output (snd (runCode used_World)) = [] /\
  output (snd (run engine_emits_then_fails
                 (snd (setOutput ["left over"] used_World))))
  = output (snd (run engine_emits_then_fails used_World)).
Proof.
  split; [reflexivity |].
  destruct (runCode_resets_output engine_emits_then_fails used_World
              ["left over"]) as [Hreset Hfresh].
  split; [exact Hreset | exact (Hfresh eq_refl)].
Defined.

(** C9, as stated, fails: a call of [p] does not touch [output]. Called
    with ["x = 5"] while [output] is empty, [p] leaves [output] empty; the
    line is in [currentOutput]. *)
Lemma context_function_leaves_output :
  output (fst (snd (p context (JString "x = 5") (initial_World, []))))
  <> output initial_World ++ ["x = 5"].
Proof.
  cbn. discriminate.
Qed.

(** * Further properties: what the handlers change and what they leave *)

Section Handlers.

Context {V : Type} `{!JSValue V}.
Variable analyze : string -> completion V (list Diagnostic).
Variable execute : string -> engine V.

(** [analyzeCode], path by path. *)
Lemma analyzeCode_eq
    (value : string) (editor : Editor) (monaco : Monaco) (w : World) :
  analyzeCode analyze value editor monaco w
  = (Normal tt,
     match analyze value with
     | Normal ds =>
         snd (setModelMarkers (getModel editor) "aviator"
                (map (to_marker monaco) ds)
                (snd (StaticAnalyzer_analyze analyze value w)))
     | Throw e =>
         snd (console_error "Analysis failed" e
                (snd (StaticAnalyzer_analyze analyze value w)))
     end).
Proof.
  unfold analyzeCode, try_catch, bind, StaticAnalyzer_analyze.
  destruct (analyze value); reflexivity.
Qed.

(** The timer callback, path by path. *)
Lemma runCode_timeout_eq (code0 : string) (w : World) :
  runCode_timeout execute code0 w
  = match emitted (execute code0) 0 with
    | (cs, Normal v) =>
        (Normal tt,
         snd (setIsRunning false
                (snd (setOutput
                        (map line_of cs
                           ++ [LF +:+ "Result: " +:+ ToString v]) w))))
    | (_, Throw e) =>
        match GetMessage e with
        | Normal m =>
            (Normal tt,
             snd (setIsRunning false
                    (snd (setOutput
                            (output w ++ [LF +:+ "Error: " +:+ ToString m])
                            w))))
        | Throw t => (Throw t, snd (setIsRunning false w))
        end
    end.
Proof.
  destruct (emitted (execute code0) 0) as [cs [v | e]] eqn:Hrun.
  - apply runCode_timeout_returns. exact Hrun.
  - destruct (GetMessage e) as [m | t] eqn:Hmsg.
    + apply (runCode_timeout_throws execute code0 w cs e m); assumption.
    + apply (runCode_timeout_throws_nullish execute code0 w cs e t);
        assumption.
Qed.

(** X1. [analyzeCode] touches nothing but the console, the markers that
    owner ["aviator"] holds on the editor's model and the analyzer itself:
    the React state, the refs, the registered languages, the pending timers
    and the markers under every other model or owner stay as they were. *)
Theorem analyzeCode_frame
    (value : string) (editor : Editor) (monaco : Monaco) (w : World) :
  code (snd (analyzeCode analyze value editor monaco w)) = code w /\
  output (snd (analyzeCode analyze value editor monaco w)) = output w /\
  isRunning (snd (analyzeCode analyze value editor monaco w)) = isRunning w /\
  editorRef (snd (analyzeCode analyze value editor monaco w)) = editorRef w /\
  monacoRef (snd (analyzeCode analyze value editor monaco w)) = monacoRef w /\
  languages (snd (analyzeCode analyze value editor monaco w)) = languages w /\
  timers (snd (analyzeCode analyze value editor monaco w)) = timers w /\
  forall key : nat * string,
    key <> (getModel editor, "aviator") ->
    modelMarkers (snd (analyzeCode analyze value editor monaco w)) !! key
    = modelMarkers w !! key.
Proof.
  rewrite analyzeCode_eq.
  destruct (analyze value) as [ds | e]; cbn;
    repeat (split; [reflexivity |]); intros key Hkey.
  - apply lookup_insert_ne. congruence.
  - reflexivity.
Qed.

(** X2. A later successful analysis replaces the markers of an earlier one
    on the same editor, whatever the earlier one did: nothing of the earlier
    diagnostics is left in the marker store. *)
Theorem analyzeCode_replaces_markers
    (v1 v2 : string) (editor : Editor) (monaco : Monaco) (w : World)
    (ds : list Diagnostic) :
  analyze v2 = Normal ds ->
  modelMarkers
    (snd (analyzeCode analyze v2 editor monaco
            (snd (analyzeCode analyze v1 editor monaco w))))
  = <[(getModel editor, "aviator") := map (to_marker monaco) ds]>
      (modelMarkers w).
Proof.
  intros Hok. rewrite !analyzeCode_eq, Hok.
  destruct (analyze v1) as [ds1 | e1]; cbn.
  - apply insert_insert_eq.
  - reflexivity.
Qed.

(** X3. The timer callback writes [output] and [isRunning] and nothing else:
    whatever the engine does, the document, the refs, the registered
    languages, the markers, the console, the other pending timers and the
    analyzer log are as before. *)
Theorem runCode_timeout_frame (code0 : string) (w : World) :
  code (snd (runCode_timeout execute code0 w)) = code w /\
  editorRef (snd (runCode_timeout execute code0 w)) = editorRef w /\
  monacoRef (snd (runCode_timeout execute code0 w)) = monacoRef w /\
  languages (snd (runCode_timeout execute code0 w)) = languages w /\
  modelMarkers (snd (runCode_timeout execute code0 w)) = modelMarkers w /\
  console (snd (runCode_timeout execute code0 w)) = console w /\
  timers (snd (runCode_timeout execute code0 w)) = timers w /\
  analyzed (snd (runCode_timeout execute code0 w)) = analyzed w.
Proof.
  rewrite runCode_timeout_eq.
  destruct (emitted (execute code0) 0) as [cs [v | e]];
    [| destruct (GetMessage e)]; cbn; repeat split; reflexivity.
Qed.

(** What the output pane holds after the callback. *)
Lemma runCode_timeout_output (code0 : string) (w : World) :
  output (snd (runCode_timeout execute code0 w))
  = match emitted (execute code0) 0 with
    | (cs, Normal v) => map line_of cs ++ [LF +:+ "Result: " +:+ ToString v]
    | (_, Throw e) =>
        match GetMessage e with
        | Normal m => output w ++ [LF +:+ "Error: " +:+ ToString m]
        | Throw _ => output w
        end
    end.
Proof.
  rewrite runCode_timeout_eq.
  destruct (emitted (execute code0) 0) as [cs [v | e]];
    [| destruct (GetMessage e)]; reflexivity.
Qed.

(** Mounting and editing leave the run lifecycle and the output pane
    alone. *)
Lemma handle_edit_run_state (w : World) (ev : Event) :
  match ev with Mount _ _ | Change _ => True | _ => False end ->
  timers (handle analyze execute w ev) = timers w /\
  isRunning (handle analyze execute w ev) = isRunning w /\
  output (handle analyze execute w ev) = output w.
Proof.
  intros Hev.
  destruct ev as [editor monaco | [v |] | |]; try contradiction;
    unfold handle, dispatch.
  - unfold handleEditorDidMount, bind, setRefs, languages_register, get,
      modify. cbn [fst snd]. rewrite analyzeCode_eq.
    destruct (analyze _); cbn; auto.
  - unfold handleEditorChange, bind, setCode, get, modify. cbn.
    destruct (editorRef w) as [editor |], (monacoRef w) as [monaco |];
      cbn; auto.
    rewrite analyzeCode_eq. destruct (analyze v); cbn; auto.
  - cbn. auto.
Qed.

(** While a run is pending, no event but the timer moves the run lifecycle
    or the output pane: edits do not, and the Run button is disabled. *)
Lemma handle_pending (w : World) (ev : Event) :
  ev <> TimerFires ->
  isRunning w = true ->
  timers (handle analyze execute w ev) = timers w /\
  isRunning (handle analyze execute w ev) = true /\
  output (handle analyze execute w ev) = output w.
Proof.
  intros Hev Hrunning.
  destruct ev as [editor monaco | value | |].
  - rewrite <- Hrunning. apply handle_edit_run_state. exact I.
  - rewrite <- Hrunning. apply handle_edit_run_state. exact I.
  - unfold handle, dispatch, Run_button_click. rewrite Hrunning. cbn. auto.
  - congruence.
Qed.

Lemma play_pending (evs : list Event) :
  forall w : World,
    Forall (fun ev => ev <> TimerFires) evs ->
    isRunning w = true ->
    timers (play analyze execute evs w) = timers w /\
    isRunning (play analyze execute evs w) = true /\
    output (play analyze execute evs w) = output w.
Proof.
  induction evs as [| ev evs IH]; intros w Hevs Hrunning.
  - cbn. auto.
  - inversion Hevs as [| ? ? Hev Hrest]; subst.
    destruct (handle_pending w ev Hev Hrunning) as (Ht & Hr & Ho).
    destruct (IH (handle analyze execute w ev) Hrest Hr) as (Ht' & Hr' & Ho').
    cbn [play fold_left]. fold (play analyze execute evs).
    rewrite <- Ht, <- Ho. auto.
Qed.

(** One event keeps the run lifecycle well formed. *)
Lemma handle_run_invariant (w : World) (ev : Event) :
  run_invariant w -> run_invariant (handle analyze execute w ev).
Proof.
  intros Hinv.
  destruct ev as [editor monaco | value | |].
  - destruct (handle_edit_run_state w (Mount editor monaco) I)
      as (Ht & Hr & Ho).
    unfold run_invariant in *. rewrite Ht, Hr, Ho. exact Hinv.
  - destruct (handle_edit_run_state w (Change value) I) as (Ht & Hr & Ho).
    unfold run_invariant in *. rewrite Ht, Hr, Ho. exact Hinv.
  - unfold handle, dispatch, Run_button_click.
    destruct (isRunning w) eqn:Hrunning; [exact Hinv |].
    unfold run_invariant in *.
    destruct (timers w) as [| c [| c' rest]] eqn:Htimers.
    + cbn. rewrite Htimers. cbn. auto.
    + destruct Hinv as [Habs _]. congruence.
    + contradiction.
  - unfold handle, dispatch, tick.
    unfold run_invariant in Hinv.
    destruct (timers w) as [| c [| c' rest]] eqn:Htimers.
    + unfold run_invariant. cbn. rewrite Htimers. exact Hinv.
    + unfold run_invariant.
      replace (timers (snd (runCode_timeout execute c (set_timers [] w))))
        with (@nil string).
      * apply runCode_timeout_idle.
      * rewrite runCode_timeout_eq.
        destruct (emitted (execute c) 0) as [cs [v | e]];
          [| destruct (GetMessage e)]; reflexivity.
    + contradiction.
Qed.

(** X4. At most one run is in flight. From a state in which the run
    lifecycle is well formed (nothing pending and [isRunning] false, or one
    callback pending, [isRunning] true and the output pane empty), every
    sequence of mounts, edits, clicks on Run and timer deliveries leads to
    such a state again. *)
Theorem play_run_invariant (evs : list Event) (w : World) :
  run_invariant w -> run_invariant (play analyze execute evs w).
Proof.
  revert w. induction evs as [| ev evs IH]; intros w Hinv.
  - exact Hinv.
  - cbn [play fold_left]. apply IH. apply handle_run_invariant. exact Hinv.
Qed.


(** X6. A run executes the text of the click. Whatever happens between the
    click on Run and the delivery of its timer (edits, a mount, further
    clicks), the output pane ends as if the timer had fired at once. *)
Theorem run_ignores_later_events (evs : list Event) (w : World) :
  timers w = [] ->
  isRunning w = false ->
  Forall (fun ev => ev <> TimerFires) evs ->
  output (play analyze execute (ClickRun :: evs ++ [TimerFires]) w)
  = output (play analyze execute [ClickRun; TimerFires] w).
Proof.
  intros Htimers Hidle Hevs.
  unfold play. cbn [fold_left]. rewrite fold_left_app. cbn [fold_left].
  set (w1 := handle analyze execute w ClickRun).
  assert (Hw1 : timers w1 = [code w] /\ isRunning w1 = true /\ output w1 = []).
  { subst w1. unfold handle, dispatch, Run_button_click. rewrite Hidle.
    cbn. rewrite Htimers. auto. }
  destruct Hw1 as (Ht1 & Hr1 & Ho1).
  destruct (play_pending evs w1 Hevs Hr1) as (Ht2 & _ & Ho2).
  unfold play in Ht2, Ho2.
  unfold handle at 1 3, dispatch, tick. rewrite Ht2, Ht1.
  rewrite !runCode_timeout_output. cbn [set_timers output].
  rewrite Ho2. reflexivity.
Qed.

End Handlers.

Section Editing.

Context {V : Type} `{!JSValue V}.
Variable analyze : string -> completion V (list Diagnostic).
Variable execute : string -> engine V.

(** The state that [handleEditorDidMount] leaves. *)
Lemma handle_Mount (w : World) (editor : Editor) (monaco : Monaco) :
  handle analyze execute w (Mount editor monaco)
  = snd (analyzeCode analyze (code w) editor monaco
           (snd (languages_register "aviator"
                   (snd (setRefs editor monaco w))))).
Proof. reflexivity. Qed.

(** The state that [handleEditorChange] leaves for a text. *)
Lemma handle_Change (w : World) (v : string) :
  handle analyze execute w (Change (Some v))
  = match editorRef w, monacoRef w with
    | Some editor, Some monaco =>
        snd (analyzeCode analyze v editor monaco (snd (setCode v w)))
    | _, _ => snd (setCode v w)
    end.
Proof.
  unfold handle, dispatch, handleEditorChange, bind, setCode, get, modify.
  cbn. destruct (editorRef w), (monacoRef w); reflexivity.
Qed.

(** Clicks and timers do not touch what the editor invariant reads. *)
Lemma handle_run_editor_state (w : World) (ev : Event) :
  match ev with ClickRun | TimerFires => True | _ => False end ->
  code (handle analyze execute w ev) = code w /\
  editorRef (handle analyze execute w ev) = editorRef w /\
  monacoRef (handle analyze execute w ev) = monacoRef w /\
  modelMarkers (handle analyze execute w ev) = modelMarkers w /\
  console (handle analyze execute w ev) = console w /\
  analyzed (handle analyze execute w ev) = analyzed w.
Proof.
  intros Hev. destruct ev as [| | |]; try contradiction;
    unfold handle, dispatch.
  - unfold Run_button_click. destruct (isRunning w); cbn; auto 7.
  - unfold tick. destruct (timers w) as [| c rest]; cbn; [auto 7 |].
    rewrite runCode_timeout_eq.
    destruct (emitted (execute c) 0) as [cs [v | e]];
      [| destruct (GetMessage e)]; cbn; auto 7.
Qed.

Lemma handle_editor_invariant (w : World) (ev : Event) :
  editor_invariant analyze w ->
  editor_invariant analyze (handle analyze execute w ev).
Proof.
  intros Hinv.
  destruct ev as [editor monaco | [v |] | |].
  - rewrite handle_Mount, analyzeCode_eq. unfold editor_invariant.
    cbn [setRefs languages_register modify snd code].
    destruct (analyze (code w)) as [ds | e] eqn:Hres; cbn; rewrite Hres.
    + split; [apply last_snoc | apply lookup_insert_eq].
    + split; [apply last_snoc | exact I].
  - rewrite handle_Change. unfold editor_invariant in *.
    destruct (editorRef w) as [editor |] eqn:Hed,
             (monacoRef w) as [monaco |] eqn:Hmo; try contradiction.
    + rewrite analyzeCode_eq.
      destruct (analyze v) as [ds | e] eqn:Hres; cbn;
        rewrite Hed, Hmo, Hres.
      * split; [apply last_snoc | apply lookup_insert_eq].
      * split; [apply last_snoc | exact I].
    + cbn. rewrite Hed, Hmo. exact I.
  - exact Hinv.
  - destruct (handle_run_editor_state w ClickRun I)
      as (Hc & He & Hm & Hk & _ & Ha).
    unfold editor_invariant in *. rewrite Hc, He, Hm, Hk, Ha. exact Hinv.
  - destruct (handle_run_editor_state w TimerFires I)
      as (Hc & He & Hm & Hk & _ & Ha).
    unfold editor_invariant in *. rewrite Hc, He, Hm, Hk, Ha. exact Hinv.
Qed.

(** X7. The markers never lag behind the document. From a state in which
    the refs are set together and, once set, the text analysed last is the
    current [code] and the editor's markers are the diagnostics of that text
    whenever the analyzer accepts it, every sequence of mounts, edits,
    clicks and timer deliveries leads to such a state again. *)
Theorem play_editor_invariant (evs : list Event) (w : World) :
  editor_invariant analyze w ->
  editor_invariant analyze (play analyze execute evs w).
Proof.
  revert w. induction evs as [| ev evs IH]; intros w Hinv.
  - exact Hinv.
  - cbn [play fold_left]. apply IH. apply handle_editor_invariant.
    exact Hinv.
Qed.

Lemma analysis_failures_snoc (texts : list string) (t : string) :
  analysis_failures analyze (texts ++ [t])
  = analysis_failures analyze texts
      ++ match analyze t with
         | Throw e => [("Analysis failed", e)]
         | Normal _ => []
         end.
Proof.
  unfold analysis_failures. rewrite omap_app. cbn.
  destruct (analyze t); reflexivity.
Qed.

Lemma handle_console (w : World) (ev : Event) :
  console w = analysis_failures analyze (analyzed w) ->
  console (handle analyze execute w ev)
  = analysis_failures analyze (analyzed (handle analyze execute w ev)).
Proof.
  intros Hinv.
  destruct ev as [editor monaco | [v |] | |].
  - rewrite handle_Mount, analyzeCode_eq.
    cbn [setRefs languages_register modify snd code].
    destruct (analyze (code w)) as [ds | e] eqn:Hres;
      cbn -[analysis_failures];
      rewrite analysis_failures_snoc, Hres, Hinv;
      [rewrite app_nil_r |]; reflexivity.
  - rewrite handle_Change.
    destruct (editorRef w) as [editor |], (monacoRef w) as [monaco |];
      try exact Hinv.
    rewrite analyzeCode_eq.
    destruct (analyze v) as [ds | e] eqn:Hres;
      cbn -[analysis_failures];
      rewrite analysis_failures_snoc, Hres, Hinv;
      [rewrite app_nil_r |]; reflexivity.
  - exact Hinv.
  - destruct (handle_run_editor_state w ClickRun I)
      as (_ & _ & _ & _ & Hl & Ha).
    rewrite Hl, Ha. exact Hinv.
  - destruct (handle_run_editor_state w TimerFires I)
      as (_ & _ & _ & _ & Hl & Ha).
    rewrite Hl, Ha. exact Hinv.
Qed.

(** X8. The console is the record of the failed analyses: if it holds one
    entry [("Analysis failed", e)] for every analysed text on which the
    analyzer threw [e], in order, and nothing else, then so it does after
    every sequence of events. Runs never write to it. *)
Theorem play_console (evs : list Event) (w : World) :
  console w = analysis_failures analyze (analyzed w) ->
  console (play analyze execute evs w)
  = analysis_failures analyze (analyzed (play analyze execute evs w)).
Proof.
  revert w. induction evs as [| ev evs IH]; intros w Hinv.
  - exact Hinv.
  - cbn [play fold_left]. apply IH. apply handle_console. exact Hinv.
Qed.

End Editing.

Section Rendering.

Context {V : Type} `{!JSValue V}.
Variable execute : string -> engine V.

Lemma classify_result_line (s : string) :
  classify (LF +:+ "Result: " +:+ s) = ResultLine.
Proof. reflexivity. Qed.

Lemma classify_error_line (s : string) :
  classify (LF +:+ "Error: " +:+ s) = PlainLine.
Proof. reflexivity. Qed.

(** X9. When the engine returns, the last line of the output pane is shown
    in the result style, whatever the value and whatever the engine
    printed. *)
Theorem result_line_rendered
    (code0 : string) (w : World) (cs : list (ContextKey * V)) (v : V) :
  emitted (execute code0) 0 = (cs, Normal v) ->
  classify <$> last (output (snd (runCode_timeout execute code0 w)))
  = Some ResultLine.
Proof.
  intros Hrun. rewrite runCode_timeout_output, Hrun, last_snoc.
  reflexivity.
Qed.

(** X10. After a run that started with an empty pane, a line is shown in
    the error style only if the engine returned normally and the line is
    one that the script itself printed: the line that the [catch] clause
    writes is never shown in the error style. *)
Theorem error_style_only_from_script
    (code0 : string) (w : World) (l : string) :
  output w = [] ->
  In l (output (snd (runCode_timeout execute code0 w))) ->
  classify l = ErrorLine ->
  exists cs v,
    emitted (execute code0) 0 = (cs, Normal v) /\ In l (map line_of cs).
Proof.
  intros Hempty Hin Hkind.
  rewrite runCode_timeout_output, Hempty in Hin.
  destruct (emitted (execute code0) 0) as [cs [v | e]].
  - exists cs, v. split; [reflexivity |].
    apply in_app_or in Hin. destruct Hin as [Hin | [Heq | []]].
    + exact Hin.
    + subst l. rewrite classify_result_line in Hkind. discriminate.
  - destruct (GetMessage e) as [m | t].
    + destruct Hin as [Heq | []]. subst l.
      rewrite classify_error_line in Hkind. discriminate.
    + destruct Hin.
Qed.


End Rendering.

Section Failures.

Context {V : Type} `{!JSValue V}.
Variable analyze : string -> completion V (list Diagnostic).
Variable execute : string -> engine V.


End Failures.

(** * The further properties at work *)

Lemma analyzeCode_replaces_markers_witness :
  analyzer_checks "let a = 1;"
  = Normal [ {| line := 1; message := "unused variable"; severity := 2 |} ] /\
  modelMarkers
    (snd (analyzeCode analyzer_checks "let a = 1;" {| getModel := 0 |}
            monaco_api
            (snd (analyzeCode analyzer_reports "fn (" {| getModel := 0 |}
                    monaco_api used_World))))
  = modelMarkers
      (snd (analyzeCode analyzer_checks "let a = 1;" {| getModel := 0 |}
              monaco_api used_World)).
Proof.
  split; [reflexivity |].
  transitivity
    (<[(0%nat, "aviator") :=
         map (to_marker monaco_api)
           [ {| line := 1; message := "unused variable"; severity := 2 |} ]]>
       (modelMarkers used_World)).
  - reflexivity.
  - symmetry.
    exact (analyzeCode_replaces_markers analyzer_checks "" "let a = 1;"
             {| getModel := 0 |} monaco_api used_World _ eq_refl).
Defined.

Lemma play_run_invariant_witness :
  run_invariant initial_World /\
  run_invariant
    (play analyzer_checks engine_echo
       [ Mount {| getModel := 0 |} monaco_api; ClickRun;
         Change (Some "let x = 1;"); ClickRun; TimerFires; ClickRun ]
       initial_World).
Proof.
  split; [reflexivity |].
  apply (play_run_invariant analyzer_checks engine_echo). reflexivity.
Defined.


Lemma run_ignores_later_events_witness :
  output
    (play analyzer_checks engine_echo
       (ClickRun
          :: [ Change (Some "let y = 2;"); ClickRun;
               Mount {| getModel := 1 |} monaco_api ]
          ++ [TimerFires])
       used_World)
  = [initial_code; LF +:+ "Result: ok"].
Proof.
  rewrite (run_ignores_later_events analyzer_checks engine_echo
             [ Change (Some "let y = 2;"); ClickRun;
               Mount {| getModel := 1 |} monaco_api ]
             used_World eq_refl eq_refl).
  - reflexivity.
  - repeat constructor; discriminate.
Defined.

Lemma play_editor_invariant_witness :
  editor_invariant analyzer_checks initial_World /\
  editor_invariant analyzer_checks
    (play analyzer_checks engine_echo
       [ Change (Some "x"); Mount {| getModel := 0 |} monaco_api;
         Change (Some "let x = 1;"); ClickRun; Change (Some "fn (");
         TimerFires; Change None ]
       initial_World).
Proof.
  split; [exact I |].
  apply (play_editor_invariant analyzer_checks engine_echo). exact I.
Defined.

Lemma play_console_witness :
  console
    (play analyzer_checks engine_echo
       [ Mount {| getModel := 0 |} monaco_api; Change (Some "fn (");
         Change (Some "let x = 1;"); ClickRun; TimerFires;
         Change (Some "??") ]
       initial_World)
  = [ ("Analysis failed", JError "SyntaxError" "unexpected token");
      ("Analysis failed", JError "SyntaxError" "unexpected token");
      ("Analysis failed", JError "SyntaxError" "unexpected token") ].
Proof.
  rewrite (play_console analyzer_checks engine_echo _ initial_World eq_refl).
  reflexivity.
Defined.

Lemma result_line_rendered_witness :
  classify
    <$> last (output (snd (runCode_timeout engine_succeeds "p(1)"
                             used_World)))
  = Some ResultLine.
Proof.
  exact (result_line_rendered engine_succeeds "p(1)" used_World _ _
           eq_refl).
Defined.

Lemma error_style_only_from_script_witness :
  exists cs v,
    emitted (engine_prints_error "") 0 = (cs, Normal v)
    /\ In "Error: made up" (map line_of cs).
Proof.
  apply (error_style_only_from_script engine_prints_error ""
           initial_World "Error: made up").
  - reflexivity.
  - left. reflexivity.
  - reflexivity.
Defined.


